(** * naabu.py: a shallow embedding of the naabu runner

    The program is one Python module, [naabu.py]: [main] validates the
    command line, [check_naabu_installed] probes the binary,
    [run_naabu] spawns it once under a timeout and classifies the finished
    process, and [run_naabu_and_save] writes the captured text to a file
    under [outputs/].

    The embedding keeps the module's shape.  Python text is a list of code
    points, exceptions are values of an inductive type, and every function
    that prints, spawns a process or touches the file system is a
    computation in a small state-and-exception monad.  What the operating
    system answers (how a child process behaves, what the clock reads, which
    file operations are refused) is a read-only [World].

    Time is counted in seconds as natural numbers, and a child that exits
    exactly when the timeout ends counts as having exited.  [print] always
    succeeds.  The exceptions are those derived from [Exception], plus
    [SystemExit]; an interrupt of the interpreter from outside is not an
    event of the model. *)

From Stdlib Require Import ZArith NArith List Lia.
From Stdlib Require Import Strings.String Strings.Ascii DecimalString.
From stdpp Require Import base option list gmap strings.

Local Open Scope Z_scope.

(** ** Python text *)

(** A Python [str] is a sequence of Unicode code points. *)
Abbreviation str := (list N).

(** An ASCII literal of the source, as code points. *)
Definition lit (s : string) : str :=
  map N_of_ascii (list_ascii_of_string s).

(** [str(n)] for an [int], as an f-string interpolates it. *)
Definition str_of_int (z : Z) : str :=
  lit (NilZero.string_of_int (Z.to_int z)).

#[global] Arguments lit : simpl never.
#[global] Arguments str_of_int : simpl never.

(** [sep.join(parts)]. *)
Fixpoint join (sep : str) (parts : list str) : str :=
  match parts with
  | [] => []
  | [p] => p
  | p :: rest => p ++ sep ++ join sep rest
  end.

#[global] Arguments join : simpl never.

(** The characters [str.strip()] removes when called without argument:
    CPython's [_PyUnicode_IsWhitespace]. *)
Definition isspace (c : N) : bool :=
  (((9 <=? c) && (c <=? 13)) || ((28 <=? c) && (c <=? 32))
   || (c =? 133) || (c =? 160) || (c =? 5760)
   || ((8192 <=? c) && (c <=? 8202))
   || (c =? 8232) || (c =? 8233) || (c =? 8239) || (c =? 8287)
   || (c =? 12288))%N.

Fixpoint lstrip (s : str) : str :=
  match s with
  | [] => []
  | c :: rest => if isspace c then lstrip rest else s
  end.

Definition rstrip (s : str) : str := rev (lstrip (rev s)).

(** [s.strip()]: leading and trailing whitespace removed. *)
Definition strip (s : str) : str := rstrip (lstrip s).

(** Truth value of a [str] in a condition: non-empty. *)
Definition truthy (s : str) : bool :=
  match s with [] => false | _ :: _ => true end.

(** [s[:-3]]. *)
Definition drop_last3 (s : str) : str := take (length s - 3)%nat s.

(** [s] consists of whitespace only (the empty text included). *)
Definition blank (s : str) : bool := forallb isspace s.

(** ** Values, exceptions and the world outside the program *)

(** The Python values the program passes through a dynamic call. *)
Inductive value :=
| VNone
| VBool (b : bool)
| VInt (z : Z)
| VStr (s : str).

(** The exception classes derived from [Exception] that occur. *)
Inductive Exception :=
| TimeoutExpired (cmd : list str) (timeout : N)
| FileNotFoundError (msg : str)
| NameError (name : string)
| OtherException (msg : str).

(** [BaseException]: [sys.exit] raises [SystemExit], which a clause
    [except Exception] does not catch. *)
Inductive BaseException :=
| Exc (e : Exception)
| SystemExit (code : value).

(** [str(e)], as [{e}] interpolates it.  No handler of this program prints
    a [TimeoutExpired]; its text is abridged. *)
Definition exception_text (e : Exception) : str :=
  match e with
  | TimeoutExpired cmd timeout =>
      lit "Command '" ++ join (lit " ") cmd ++ lit "' timed out after "
      ++ str_of_int (Z.of_N timeout) ++ lit " seconds"
  | FileNotFoundError msg => msg
  | NameError name => lit "name '" ++ lit name ++ lit "' is not defined"
  | OtherException msg => msg
  end.

(** Why a command could not be run to completion by [subprocess.run],
    other than by running out of time. *)
Inductive LaunchError :=
| NotFound (msg : str)
| Failed (msg : str).

Definition launch_exception (e : LaunchError) : Exception :=
  match e with
  | NotFound msg => FileNotFoundError msg
  | Failed msg => OtherException msg
  end.

(** What a command line does when the operating system is asked to run it:
    it exits after some time with a return code (negative: killed by that
    signal) and its two output streams as text, or it never exits, or it
    cannot be run. *)
Inductive Child :=
| Exits (after : N) (returncode : Z) (stdout stderr : str)
| Hangs
| LaunchFails (e : LaunchError).

(** [subprocess.CompletedProcess]. *)
Record CompletedProcess := {
  returncode : Z;
  stdout : str;
  stderr : str
}.

Record World := {
  (** the behaviour of each command line *)
  spawn : list str -> Child;
  (** [datetime.now().strftime("%Y%m%d%H%M%S%f")] *)
  strftime_now : str;
  (** the error, if any, with which the system refuses to create a
      directory, to open a file for writing, to write to it *)
  makedirs_fault : str -> option str;
  open_fault : str -> option str;
  write_fault : str -> option str
}.

(** What the program changes: the two output streams (one entry per
    [print]), the calls of [subprocess.run] (command line and timeout), and
    the directories and files of the file system. *)
Record State := {
  out : list str;
  err : list str;
  spawned : list (list str * N);
  dirs : gset str;
  files : gmap str str
}.

Definition initial : State :=
  {| out := []; err := []; spawned := []; dirs := ∅; files := ∅ |}.

(** ** Computations *)

Inductive Result (A : Type) :=
| Ret (a : A)
| Raise (e : BaseException).
Arguments Ret {A} a.
Arguments Raise {A} e.

Definition M (A : Type) : Type := State -> Result A * State.

Definition ret {A : Type} (a : A) : M A := fun s => (Ret a, s).

Definition bind {A B : Type} (m : M A) (k : A -> M B) : M B := fun s =>
  match m s with
  | (Ret a, s') => k a s'
  | (Raise e, s') => (Raise e, s')
  end.

Declare Scope py_scope.
Delimit Scope py_scope with py.
Notation "x ← y ; z" := (bind y (fun x => z))
  (at level 20, y at level 100, z at level 200, only parsing) : py_scope.
Notation "x ;; z" := (bind x (fun _ => z))
  (at level 100, z at level 200, only parsing, right associativity)
  : py_scope.
Local Open Scope py_scope.

Definition raise {A : Type} (e : BaseException) : M A :=
  fun s => (Raise e, s).

(** [try: body except ...:].  [handlers e] is the body of the first clause
    that matches [e], if one does; [SystemExit] passes through. *)
Definition try_except {A : Type} (body : M A)
    (handlers : Exception -> option (M A)) : M A :=
  fun s =>
    match body s with
    | (Raise (Exc e), s') =>
        match handlers e with
        | Some handler => handler s'
        | None => (Raise (Exc e), s')
        end
    | r => r
    end.

Definition print (line : str) : M unit := fun s =>
  (Ret tt, {| out := out s ++ [line]; err := err s; spawned := spawned s;
              dirs := dirs s; files := files s |}).

(** [print(line, file=sys.stderr)] *)
Definition print_stderr (line : str) : M unit := fun s =>
  (Ret tt, {| out := out s; err := err s ++ [line]; spawned := spawned s;
              dirs := dirs s; files := files s |}).

(** [sys.exit(code)] *)
Definition sys_exit {A : Type} (code : value) : M A :=
  raise (SystemExit code).

(** The part of the state that is the file system. *)
Definition fs (s : State) : gset str * gmap str str := (dirs s, files s).

(** ** Functions as values *)

(** A function object of the module: of no parameter, or of one parameter
    that receives text. *)
Inductive pyfunction :=
| Fn0 (body : M value)
| Fn1 (body : str -> M value).

(** [f()] and [f(arg)]; a call with the wrong number of arguments is a
    [TypeError]. *)
Definition call0 (f : pyfunction) : M value :=
  match f with
  | Fn0 body => body
  | Fn1 _ =>
      raise (Exc (OtherException
                    (lit "missing 1 required positional argument")))
  end.

Definition call1 (f : pyfunction) (arg : str) : M value :=
  match f with
  | Fn0 _ =>
      raise (Exc (OtherException
                    (lit "takes 0 positional arguments but 1 was given")))
  | Fn1 body => body arg
  end.

(** The truth value of [v] in a condition, and the test [v == 0]. *)
Definition value_truthy (v : value) : bool :=
  match v with
  | VNone => false
  | VBool b => b
  | VInt z => negb (z =? 0)
  | VStr s => truthy s
  end.

Definition value_is_zero (v : value) : bool :=
  match v with
  | VInt z => z =? 0
  | VBool b => negb b
  | _ => false
  end.

(** The exit status of the interpreter: the argument of [sys.exit] when it
    is an integer, 1 after an exception nobody caught. *)
Definition exit_status {A : Type} (r : Result A) : Z :=
  match r with
  | Ret _ => 0
  | Raise (SystemExit VNone) => 0
  | Raise (SystemExit (VBool b)) => if b then 1 else 0
  | Raise (SystemExit (VInt n)) => n mod 256
  | Raise (SystemExit (VStr _)) => 1
  | Raise (Exc _) => 1
  end.

(** ** The module [naabu.py] *)

Section Naabu.

Variable w : World.

(** *** Library calls *)

(** [subprocess.run(cmd, stdout=PIPE, stderr=PIPE, text=True,
    timeout=timeout)]: the child's result if it exits in time,
    [TimeoutExpired] if it has not, the launch error otherwise. *)
Definition subprocess_run (cmd : list str) (timeout : N)
    : M CompletedProcess := fun s =>
  let s' := {| out := out s; err := err s;
               spawned := spawned s ++ [(cmd, timeout)];
               dirs := dirs s; files := files s |} in
  match spawn w cmd with
  | Exits after rc o e =>
      if (after <=? timeout)%N
      then (Ret {| returncode := rc; stdout := o; stderr := e |}, s')
      else (Raise (Exc (TimeoutExpired cmd timeout)), s')
  | Hangs => (Raise (Exc (TimeoutExpired cmd timeout)), s')
  | LaunchFails e => (Raise (Exc (launch_exception e)), s')
  end.

(** [os.makedirs(path, exist_ok=True)], for a path of one component:
    the directory is there afterwards, unless the system refuses (the
    path is a file, the parent is read-only). *)
Definition makedirs (path : str) : M unit := fun s =>
  match makedirs_fault w path with
  | Some msg => (Raise (Exc (OtherException msg)), s)
  | None =>
      (Ret tt, {| out := out s; err := err s; spawned := spawned s;
                  dirs := dirs s ∪ {[path]}; files := files s |})
  end.

(** [with open(path, "w") as f: f.write(text)]: opening creates or
    empties the file, writing stores the text; the system may refuse
    either. *)
Definition write_file (path text : str) : M unit := fun s =>
  match open_fault w path with
  | Some msg => (Raise (Exc (OtherException msg)), s)
  | None =>
      let opened := <[path := []]> (files s) in
      match write_fault w path with
      | Some msg =>
          (Raise (Exc (OtherException msg)),
           {| out := out s; err := err s; spawned := spawned s;
              dirs := dirs s; files := opened |})
      | None =>
          (Ret tt,
           {| out := out s; err := err s; spawned := spawned s;
              dirs := dirs s; files := <[path := text]> opened |})
      end
  end.

(** [os.path.join(a, b)] *)
Definition path_join (a b : str) : str :=
  match b with
  | 47%N :: _ => b
  | _ =>
      match rev a with
      | [] => b
      | 47%N :: _ => a ++ b
      | _ => a ++ lit "/" ++ b
      end
  end.

(** [Path.exists()] and [Path.is_dir()] *)
Definition path_exists (path : str) : M bool := fun s =>
  (Ret (bool_decide (path ∈ dirs s) || bool_decide (path ∈ dom (files s))),
   s).

Definition path_is_dir (path : str) : M bool := fun s =>
  (Ret (bool_decide (path ∈ dirs s)), s).

Definition now_strftime : M str := fun s => (Ret (strftime_now w), s).

(** *** The functions of the module *)

(** Return True if naabu is installed and available in PATH. *)
Definition check_naabu_installed : M bool :=
  try_except
    (result ← subprocess_run [lit "/go/bin/naabu"; lit "-version"] 5;
     ret (returncode result =? 0))
    (fun e =>
       match e with
       | TimeoutExpired _ _ | FileNotFoundError _ => Some (ret false)
       | _ => None
       end).

(** Detect and note if a virtual environment exists. *)
Definition activate_venv : M unit :=
  let venv_path := lit "venv" in
  e ← path_exists venv_path;
  d ← (if e then path_is_dir venv_path else ret false);
  if d then
    print (lit "[*] Virtual environment found");;
    let venv_python := path_join (path_join venv_path (lit "bin"))
                                 (lit "python3") in
    p ← path_exists venv_python;
    if p then print (lit "[*] Using virtual environment Python")
    else print (lit "[*] Virtual environment found but Python not detected")
  else ret tt.

(** The command line [run_naabu] builds. *)
Definition command (domain : str) : list str :=
  [lit "/go/bin/naabu"; lit "-host"; domain; lit "-silent"].

#[global] Arguments command : simpl never.

(** Run naabu on the given subdomain and return its output as a string,
    or None on error. *)
Definition run_naabu (domain : str) : M (option str) :=
  print (lit "[*] Executing: " ++ join (lit " ") (command domain));;
  try_except
    (result ← subprocess_run (command domain) 300;
     if returncode result =? -9 then
       print (lit "[!] Warning: naabu process was killed by SIGKILL (likely due to memory/resource limits)");;
       if truthy (strip (stdout result))
       then ret (Some (stdout result))
       else ret None
     else if negb (returncode result =? 0) then
       print (lit "[!] naabu exited with code "
              ++ str_of_int (returncode result));;
       (if truthy (stderr result)
        then print (lit "naabu error output:");; print (stderr result)
        else ret tt);;
       ret (if truthy (strip (stdout result))
             then Some (stdout result) else None)
     else ret (Some (stdout result)))
    (fun e =>
       match e with
       | TimeoutExpired _ _ =>
           Some (print (lit "[!] naabu wordlist generation timed out");;
                 ret None)
       | FileNotFoundError _ =>
           Some (print (lit "[!] Error: naabu command not found. Please ensure naabu is installed and in PATH");;
                 ret None)
       | _ =>
           Some (print (lit "[!] Unexpected error running naabu: "
                        ++ exception_text e);;
                 ret None)
       end).

(** Run naabu and save results to a timestamped file. *)
Definition run_naabu_and_save (subdomain : str) : M Z :=
  try_except
    (naabu_output ← run_naabu subdomain;
     match naabu_output with
     | None =>
         print (lit "[!] naabu failed or returned no output");;
         ret 1
     | Some text =>
         let output_dir := lit "outputs" in
         makedirs output_dir;;
         stamp ← now_strftime;
         let timestamp := drop_last3 stamp in
         let filename := timestamp ++ lit "-naabu.txt" in
         let filepath := path_join output_dir filename in
         write_file filepath text;;
         print (lit "[*] naabu results saved as " ++ filepath);;
         ret 0
     end)
    (fun e =>
       Some (print_stderr (lit "[!] Error running naabu: "
                           ++ exception_text e);;
             ret 1)).

(** *** The module's namespace and [main] *)

(** The functions the [def] statements of the module bind, by name, as
    [main] finds them when it runs.  ([main] itself is bound too; it does
    not call itself.) *)
Definition module_globals : gmap string pyfunction :=
  <["check_naabu_installed" :=
      Fn0 (b ← check_naabu_installed; ret (VBool b))]>
  (<["activate_venv" := Fn0 (activate_venv;; ret VNone)]>
  (<["run_naabu_and_save" :=
      Fn1 (fun subdomain => z ← run_naabu_and_save subdomain;
                            ret (VInt z))]>
  (<["run_naabu" :=
      Fn1 (fun domain =>
             o ← run_naabu domain;
             ret (match o with Some text => VStr text | None => VNone end))]>
   ∅))).

(** Looking a global name up when the call is evaluated. *)
Definition load_global (name : string) : M pyfunction :=
  match module_globals !! name with
  | Some f => ret f
  | None => raise (Exc (NameError name))
  end.

(** Entry point: Validate input, check dependencies, run wordlist
    generation, and handle results. *)
Definition main (argv : list str) : M value :=
  if (length argv <? 2)%nat then
    print (lit "[!] Error: Please provide a subdomain for wordlist generation");;
    print (lit "Usage: python3 naabu.py example.com");;
    sys_exit (VInt 1)
  else
    let subdomain := default [] (argv !! 1%nat) in
    f ← load_global "check_naabu_installed";
    installed ← call0 f;
    (if negb (value_truthy installed) then
       print (lit "[!] Error: naabu is not installed or not in PATH");;
       print (lit "Please install naabu first: https://naabu.projectdiscovery.io/naabu/get-started/");;
       sys_exit (VInt 1)
     else ret tt);;
    f ← load_global "activate_venv";
    call0 f;;
    print (lit "[*] Starting naabu subdomain wordlist generation for: "
           ++ subdomain);;
    f ← load_global "run_naabu_wordlist_generation_and_save";
    exit_code ← call1 f subdomain;
    (if value_is_zero exit_code
     then print (lit "[+] wordlist generation completed successfully")
     else print (lit "[!] wordlist generation completed with errors or warnings"));;
    sys_exit exit_code.

End Naabu.

(** [python3 naabu.py args]: the exit status of the process and what it
    leaves behind, [argv] being the script name followed by [args]. *)
Definition naabu_py (w : World) (args : list str) (s : State) : Z * State :=
  let (r, s') := main w (lit "naabu.py" :: args) s in (exit_status r, s').

(** ** Vocabulary of the statements *)

(** The line [run_naabu] prints before it starts the child. *)
Definition executing (domain : str) : str :=
  lit "[*] Executing: " ++ join (lit " ") (command domain).

Definition sigkill_warning : str :=
  lit "[!] Warning: naabu process was killed by SIGKILL (likely due to memory/resource limits)".

(** The state once [subprocess.run] has been called. *)
Definition started (domain : str) (s : State) (lines : list str) : State :=
  {| out := out s ++ executing domain :: lines; err := err s;
     spawned := spawned s ++ [(command domain, 300%N)];
     dirs := dirs s; files := files s |}.

(** The child does not exit within [timeout]. *)
Definition outlives (timeout : N) (c : Child) : Prop :=
  match c with
  | Exits after _ _ _ => (timeout < after)%N
  | Hangs => True
  | LaunchFails _ => False
  end.

(** The command line of the dependency check. *)
Definition version_query : list str := [lit "/go/bin/naabu"; lit "-version"].

(** What [check_naabu_installed] makes of the version query. *)
Definition probe_result (c : Child) : Result bool :=
  match c with
  | Exits after rc _ _ => if (after <=? 5)%N then Ret (rc =? 0) else Ret false
  | Hangs => Ret false
  | LaunchFails (NotFound _) => Ret false
  | LaunchFails (Failed msg) => Raise (Exc (OtherException msg))
  end.

(** The state once the version query has been run. *)
Definition probed (s : State) : State :=
  {| out := out s; err := err s;
     spawned := spawned s ++ [(version_query, 5%N)];
     dirs := dirs s; files := files s |}.

(** The state with [lines] printed to standard output. *)
Definition printed (lines : list str) (s : State) : State :=
  {| out := out s ++ lines; err := err s; spawned := spawned s;
     dirs := dirs s; files := files s |}.

(** The state with the line [run_naabu_and_save] prints to standard error
    when it catches an exception of text [msg]. *)
Definition complained (msg : str) (s : State) : State :=
  {| out := out s;
     err := err s ++ [lit "[!] Error running naabu: " ++ msg];
     spawned := spawned s; dirs := dirs s; files := files s |}.

(** The state with the directory [outputs], and with the file [path]
    holding [text] after it was opened for writing. *)
Definition with_outputs (s : State) : State :=
  {| out := out s; err := err s; spawned := spawned s;
     dirs := dirs s ∪ {[lit "outputs"]}; files := files s |}.

Definition stored (path text : str) (s : State) : State :=
  {| out := out s; err := err s; spawned := spawned s; dirs := dirs s;
     files := <[path := text]> (<[path := []]> (files s)) |}.

(** The name [main] calls after the dependency check. *)
Definition callee : string := "run_naabu_wordlist_generation_and_save".

(** Where [run_naabu_and_save] writes. *)
Definition output_path (w : World) : str :=
  path_join (lit "outputs")
            (drop_last3 (strftime_now w) ++ lit "-naabu.txt").

(** ** Stub worlds *)

(** A world in which every command line behaves as [c], the clock reads
    2024-01-02 03:04:05.123456 and no file operation is refused. *)
Definition stub (c : Child) : World :=
  {| spawn := fun _ => c;
     strftime_now := lit "20240102030405123456";
     makedirs_fault := fun _ => None;
     open_fault := fun _ => None;
     write_fault := fun _ => None |}.

(** A world like [stub scan], except that the version query behaves as
    [version]. *)
Definition stubs (version scan : Child) : World :=
  {| spawn := fun cmd =>
       if decide (cmd = version_query) then version else scan;
     strftime_now := lit "20240102030405123456";
     makedirs_fault := fun _ => None;
     open_fault := fun _ => None;
     write_fault := fun _ => None |}.

(** The text of a space followed by a newline. *)
Definition space_newline : str := [32; 10]%N.

(** A machine on which naabu is installed and the scan of any target
    exits 0 after printing [X]. *)
Definition healthy : World :=
  stubs (Exits 1 0 (lit "naabu 2.3.0") []) (Exits 1 0 (lit "X") []).

(** A machine on which the version query exits 1; the scan, if it were
    run, would never exit. *)
Definition broken : World := stubs (Exits 1 1 [] []) Hangs.

(** A machine on which the version query cannot be run for a reason other
    than a missing file. *)
Definition unlaunchable : World :=
  stubs (LaunchFails (Failed (lit "[Errno 13] Permission denied: '/go/bin/naabu'")))
        (Exits 1 0 (lit "X") []).

(** Worlds like [stub c] in which the system refuses to create any
    directory, to open any file for writing, to write to any file. *)
Definition no_mkdir (c : Child) : World :=
  {| spawn := fun _ => c;
     strftime_now := lit "20240102030405123456";
     makedirs_fault := fun _ => Some (lit "[Errno 13] Permission denied: 'outputs'");
     open_fault := fun _ => None;
     write_fault := fun _ => None |}.

Definition no_open (c : Child) : World :=
  {| spawn := fun _ => c;
     strftime_now := lit "20240102030405123456";
     makedirs_fault := fun _ => None;
     open_fault := fun _ => Some (lit "[Errno 13] Permission denied");
     write_fault := fun _ => None |}.

Definition no_write (c : Child) : World :=
  {| spawn := fun _ => c;
     strftime_now := lit "20240102030405123456";
     makedirs_fault := fun _ => None;
     open_fault := fun _ => None;
     write_fault := fun _ => Some (lit "[Errno 28] No space left on device") |}.

(** File systems for [activate_venv]: [venv] is a directory that holds
    [bin/python3]; [venv] is an empty directory; [venv] is a regular
    file. *)
Definition venv_ready : State :=
  {| out := []; err := []; spawned := [];
     dirs := {[lit "venv"]};
     files := {[lit "venv/bin/python3" := []]} |}.

Definition venv_bare : State :=
  {| out := []; err := []; spawned := []; dirs := {[lit "venv"]}; files := ∅ |}.

Definition venv_file : State :=
  {| out := []; err := []; spawned := []; dirs := ∅;
     files := {[lit "venv" := []]} |}.

(** The path [activate_venv] probes for the interpreter. *)
Definition venv_python : str :=
  path_join (path_join (lit "venv") (lit "bin")) (lit "python3").

(** * Proofs *)

(** ** Text *)

Section TextLemmas.

Lemma lstrip_blank (s : str) : blank s = true -> lstrip s = [].
Proof.
  induction s as [|c s IH]; simpl; [reflexivity|].
  intros H. apply andb_prop in H as [Hc Hs].
  rewrite Hc. auto.
Qed.

Lemma lstrip_nil_blank (s : str) : lstrip s = [] -> blank s = true.
Proof.
  induction s as [|c s IH]; simpl; [reflexivity|].
  destruct (isspace c); [auto | discriminate].
Qed.

(** What is left of [lstrip] starts with a character that is kept. *)
Lemma lstrip_head (s : str) (c : N) (r : str) :
  lstrip s = c :: r -> isspace c = false.
Proof.
  induction s as [|a s IH]; simpl; [discriminate|].
  destruct (isspace a) eqn:Ha; [exact IH|].
  intros H. injection H as -> _. exact Ha.
Qed.

Lemma blank_app (s t : str) : blank (s ++ t) = blank s && blank t.
Proof. unfold blank. apply forallb_app. Qed.

Lemma blank_rev (s : str) : blank (rev s) = blank s.
Proof.
  induction s as [|c s IH]; simpl; [reflexivity|].
  rewrite blank_app, IH. simpl. rewrite andb_true_r. apply andb_comm.
Qed.

Lemma strip_blank (s : str) : blank s = true -> strip s = [].
Proof.
  intros H. unfold strip. rewrite (lstrip_blank s H). reflexivity.
Qed.

Lemma strip_nil_blank (s : str) : strip s = [] -> blank s = true.
Proof.
  unfold strip, rstrip. intros H.
  assert (Hr : lstrip (rev (lstrip s)) = []).
  { rewrite <- (rev_involutive (lstrip (rev (lstrip s)))), H. reflexivity. }
  apply lstrip_nil_blank in Hr. rewrite blank_rev in Hr.
  destruct (lstrip s) as [|c r] eqn:E.
  - apply lstrip_nil_blank. exact E.
  - apply lstrip_head in E. simpl in Hr. rewrite E in Hr. discriminate.
Qed.

(** The test [if s.strip():] fails exactly on blank text. *)
Lemma truthy_strip (s : str) : truthy (strip s) = negb (blank s).
Proof.
  destruct (blank s) eqn:B.
  - rewrite (strip_blank s B). reflexivity.
  - destruct (strip s) eqn:E; [|reflexivity].
    apply strip_nil_blank in E. congruence.
Qed.

Lemma blank_nil_or_space (s : str) :
  blank s = false -> exists c, In c s /\ isspace c = false.
Proof.
  induction s as [|a s IH]; simpl; [discriminate|].
  destruct (isspace a) eqn:Ha; simpl.
  - intros H. destruct (IH H) as (c & Hin & Hc). eauto.
  - intros _. exists a. auto.
Qed.

End TextLemmas.

#[global] Arguments strip : simpl never.
#[global] Arguments truthy : simpl never.
#[global] Arguments blank : simpl never.

(** ** The runner: [run_naabu] *)

Module Runner.

Ltac run :=
  unfold run_naabu, check_naabu_installed, bind, try_except, print,
    subprocess_run, ret, started, executing; cbn.

Section Cases.

Variable w : World.
Variables (domain : str) (s : State).

(** A clean exit with status zero. *)
Lemma exit_zero (after : N) (o e : str) :
  spawn w (command domain) = Exits after 0 o e ->
  (after <= 300)%N ->
  run_naabu w domain s = (Ret (Some o), started domain s []).
Proof.
  intros Hc Ht. apply N.leb_le in Ht.
  run. rewrite Hc, Ht. cbn. rewrite <- ?app_assoc. reflexivity.
Qed.

(** Death by SIGKILL. *)
Lemma killed (after : N) (o e : str) :
  spawn w (command domain) = Exits after (-9) o e ->
  (after <= 300)%N ->
  run_naabu w domain s
  = (Ret (if blank o then None else Some o),
     started domain s [sigkill_warning]).
Proof.
  intros Hc Ht. apply N.leb_le in Ht.
  run. rewrite Hc, Ht. cbn. rewrite truthy_strip.
  destruct (blank o); cbn; rewrite <- ?app_assoc; reflexivity.
Qed.

(** Any other exit with a status that is not zero. *)
Lemma exit_nonzero (after : N) (rc : Z) (o e : str) :
  spawn w (command domain) = Exits after rc o e ->
  (after <= 300)%N ->
  rc <> 0 -> rc <> -9 ->
  run_naabu w domain s
  = (Ret (if blank o then None else Some o),
     started domain s
       ((lit "[!] naabu exited with code " ++ str_of_int rc)
        :: (if truthy e then [lit "naabu error output:"; e] else []))).
Proof.
  intros Hc Ht H0 H9. apply N.leb_le in Ht.
  apply Z.eqb_neq in H0, H9.
  run. rewrite Hc, Ht. cbn. rewrite H9, H0. cbn.
  rewrite truthy_strip.
  destruct (truthy e), (blank o); cbn;
    rewrite <- ?app_assoc; reflexivity.
Qed.

(** The child is still running when the 300 seconds are over. *)
Lemma timed_out :
  outlives 300 (spawn w (command domain)) ->
  run_naabu w domain s
  = (Ret None,
     started domain s [lit "[!] naabu wordlist generation timed out"]).
Proof.
  unfold outlives. intros H. run.
  destruct (spawn w (command domain)) as [after rc o e| |le];
    [|cbn; rewrite <- ?app_assoc; reflexivity|contradiction].
  apply N.leb_gt in H. rewrite H. cbn.
  rewrite <- ?app_assoc. reflexivity.
Qed.

(** The executable is not there. *)
Lemma not_found (msg : str) :
  spawn w (command domain) = LaunchFails (NotFound msg) ->
  run_naabu w domain s
  = (Ret None,
     started domain s [lit "[!] Error: naabu command not found. Please ensure naabu is installed and in PATH"]).
Proof.
  intros Hc. run. rewrite Hc. cbn. rewrite <- ?app_assoc. reflexivity.
Qed.

(** Any other error of the launch. *)
Lemma launch_failed (msg : str) :
  spawn w (command domain) = LaunchFails (Failed msg) ->
  run_naabu w domain s
  = (Ret None,
     started domain s
       [lit "[!] Unexpected error running naabu: " ++ msg]).
Proof.
  intros Hc. run. rewrite Hc. cbn. rewrite <- ?app_assoc. reflexivity.
Qed.

(** Whatever the child does, [run_naabu] returns a value, prints to
    standard output, records one call of [subprocess.run] and leaves
    the rest of the state alone. *)
Lemma returns :
  exists (r : option str) (lines : list str),
    run_naabu w domain s = (Ret r, started domain s lines).
Proof.
  destruct (spawn w (command domain)) as [after rc o e| |[msg|msg]] eqn:Hc.
  - destruct (N.le_gt_cases after 300) as [Ht|Ht].
    + destruct (Z.eq_dec rc 0) as [->|H0];
        [eauto using exit_zero|].
      destruct (Z.eq_dec rc (-9)) as [->|H9];
        [eauto using killed|eauto using exit_nonzero].
    + do 2 eexists. apply timed_out. rewrite Hc. exact Ht.
  - do 2 eexists. apply timed_out. rewrite Hc. exact I.
  - eauto using not_found.
  - eauto using launch_failed.
Qed.

(** The value [run_naabu] returns, read off the child's behaviour. *)
Lemma returned_value :
  fst (run_naabu w domain s)
  = Ret match spawn w (command domain) with
        | Exits after rc o e =>
            if (after <=? 300)%N then
              if rc =? 0 then Some o
              else if blank o then None else Some o
            else None
        | Hangs => None
        | LaunchFails (NotFound _) => None
        | LaunchFails (Failed _) => None
        end.
Proof.
  destruct (spawn w (command domain)) as [after rc o e| |[msg|msg]] eqn:Hc.
  - destruct (N.le_gt_cases after 300) as [Ht|Ht].
    + rewrite (proj2 (N.leb_le _ _) Ht).
      destruct (Z.eq_dec rc 0) as [->|H0].
      * rewrite (exit_zero after o e Hc Ht). reflexivity.
      * rewrite (proj2 (Z.eqb_neq _ _) H0).
        destruct (Z.eq_dec rc (-9)) as [->|H9].
        -- rewrite (killed after o e Hc Ht). reflexivity.
        -- rewrite (exit_nonzero after rc o e Hc Ht H0 H9). reflexivity.
    + rewrite (proj2 (N.leb_gt _ _) Ht).
      rewrite timed_out; [reflexivity|]. rewrite Hc. exact Ht.
  - rewrite timed_out; [reflexivity|]. rewrite Hc. exact I.
  - rewrite (not_found msg Hc). reflexivity.
  - rewrite (launch_failed msg Hc). reflexivity.
Qed.

End Cases.

End Runner.

(** ** Properties of the runner *)

Section RunnerClaims.

Import Runner.

(** C2.  For every non-empty target, when the child exits with status
    zero (within the 300 seconds), [run_naabu] returns the captured
    standard output, whatever it is, the empty text included. *)
Theorem run_naabu_exit_zero_returns_stdout
    (w : World) (domain : str) (s : State) (after : N) (o e : str) :
  domain <> [] ->
  spawn w (command domain) = Exits after 0 o e ->
  (after <= 300)%N ->
  fst (run_naabu w domain s) = Ret (Some o).
Proof.
  intros _ Hc Ht. rewrite (exit_zero w domain s after o e Hc Ht).
  reflexivity.
Qed.

(** C2, at the stub that exits 0 and prints [X], and at one that exits 0
    and prints nothing. *)
Lemma run_naabu_exit_zero_returns_stdout_witness :
  fst (run_naabu (stub (Exits 1 0 (lit "X") [])) (lit "example.com") initial)
  = Ret (Some (lit "X"))
  /\ fst (run_naabu (stub (Exits 1 0 [] [])) (lit "example.com") initial)
     = Ret (Some []).
Proof.
  split.
  - apply (run_naabu_exit_zero_returns_stdout
             (stub (Exits 1 0 (lit "X") [])) (lit "example.com") initial
             1 (lit "X") []);
      [discriminate | reflexivity | discriminate].
  - apply (run_naabu_exit_zero_returns_stdout
             (stub (Exits 1 0 [] [])) (lit "example.com") initial
             1 [] []);
      [discriminate | reflexivity | discriminate].
Defined.

(** C3 as stated: a result other than None only when the child wrote
    non-empty standard output.  It fails at the child that exits 0 and
    writes nothing: the result is the empty text, not None. *)
Lemma output_present_with_empty_stdout :
  ~ (forall (w : World) (domain : str) (s : State) (x : str),
       fst (run_naabu w domain s) = Ret (Some x) ->
       exists after rc o e,
         spawn w (command domain) = Exits after rc o e /\ o <> []).
Proof.
  intros H.
  destruct (H (stub (Exits 1 0 [] [])) (lit "example.com") initial [])
    as (after & rc & o & e & Hc & Ho).
  - reflexivity.
  - cbn in Hc. injection Hc as _ _ Heq _. apply Ho. symmetry. exact Heq.
Qed.

(** C3, amended.  A result other than None is the standard output of a
    child that exited in time, and either the exit status is zero or the
    output holds a character that is not whitespace (so it is not
    empty). *)
Theorem output_present_only_if
    (w : World) (domain : str) (s : State) (x : str) :
  fst (run_naabu w domain s) = Ret (Some x) ->
  exists after rc e,
    spawn w (command domain) = Exits after rc x e
    /\ (after <= 300)%N
    /\ (rc = 0 \/ (x <> [] /\ blank x = false)).
Proof.
  intros H.
  assert (Hb : forall o : str,
             Ret (if blank o then None else Some o) = Ret (Some x) ->
             o = x /\ x <> [] /\ blank x = false).
  { intros o. destruct (blank o) eqn:B; [discriminate|].
    intros [= ->]. repeat split; [|exact B].
    intros ->. discriminate B. }
  destruct (spawn w (command domain)) as [after rc o e| |[msg|msg]] eqn:Hc.
  - destruct (N.le_gt_cases after 300) as [Ht|Ht].
    + destruct (Z.eq_dec rc 0) as [->|H0].
      * rewrite (exit_zero w domain s after o e Hc Ht) in H.
        injection H as ->. exists after, 0, e. auto.
      * destruct (Z.eq_dec rc (-9)) as [->|H9].
        -- rewrite (killed w domain s after o e Hc Ht) in H.
           apply Hb in H as (-> & Hx). exists after, (-9), e. auto.
        -- rewrite (exit_nonzero w domain s after rc o e Hc Ht H0 H9) in H.
           apply Hb in H as (-> & Hx). exists after, rc, e. auto.
    + rewrite (timed_out w domain s) in H; [discriminate|].
      rewrite Hc. exact Ht.
  - rewrite (timed_out w domain s) in H; [discriminate|].
    rewrite Hc. exact I.
  - rewrite (not_found w domain s msg Hc) in H. discriminate.
  - rewrite (launch_failed w domain s msg Hc) in H. discriminate.
Qed.

(** C3 amended, at a child that exits 1 after writing [open]. *)
Lemma output_present_only_if_witness :
  exists after rc e,
    spawn (stub (Exits 1 1 (lit "open") [])) (command (lit "example.com"))
    = Exits after rc (lit "open") e
    /\ (after <= 300)%N
    /\ (rc = 0 \/ (lit "open" <> [] /\ blank (lit "open") = false)).
Proof.
  apply (output_present_only_if
           (stub (Exits 1 1 (lit "open") [])) (lit "example.com") initial).
  reflexivity.
Defined.

(** C4 as stated: after a SIGKILL the captured output is returned when
    it is non-empty, None otherwise.  It fails at the child that wrote a
    space and a newline before it was killed: that output is not empty
    and the result is None. *)
Lemma killed_nonempty_output_dropped :
  ~ (forall (w : World) (domain : str) (s : State) (after : N) (o e : str),
       spawn w (command domain) = Exits after (-9) o e ->
       (after <= 300)%N ->
       (o <> [] -> fst (run_naabu w domain s) = Ret (Some o))
       /\ (o = [] -> fst (run_naabu w domain s) = Ret None)).
Proof.
  intros H.
  destruct (H (stub (Exits 1 (-9) space_newline [])) (lit "example.com")
              initial 1%N space_newline [] eq_refl) as [Hsome _];
    [discriminate|].
  specialize (Hsome ltac:(discriminate)). vm_compute in Hsome.
  discriminate Hsome.
Qed.

(** C4, amended.  When the child was killed by SIGKILL, [run_naabu]
    prints the warning and returns the captured standard output if it
    holds a character that is not whitespace, None otherwise. *)
Theorem killed_returns_usable_output
    (w : World) (domain : str) (s : State) (after : N) (o e : str) :
  spawn w (command domain) = Exits after (-9) o e ->
  (after <= 300)%N ->
  fst (run_naabu w domain s) = Ret (if blank o then None else Some o)
  /\ out (snd (run_naabu w domain s))
     = out s ++ [executing domain; sigkill_warning].
Proof.
  intros Hc Ht. rewrite (killed w domain s after o e Hc Ht).
  split; reflexivity.
Qed.

(** C4 amended, at the stub killed after writing [partial]. *)
Lemma killed_returns_usable_output_witness :
  fst (run_naabu (stub (Exits 1 (-9) (lit "partial") []))
         (lit "example.com") initial)
  = Ret (Some (lit "partial"))
  /\ out (snd (run_naabu (stub (Exits 1 (-9) (lit "partial") []))
                 (lit "example.com") initial))
     = [executing (lit "example.com"); sigkill_warning].
Proof.
  apply (killed_returns_usable_output
           (stub (Exits 1 (-9) (lit "partial") [])) (lit "example.com")
           initial 1 (lit "partial") []);
    [reflexivity | discriminate].
Defined.

(** C5 as stated: after an exit status that is neither zero nor a kill
    the captured output is returned when it is non-empty.  It fails at
    the child that exits 2 having written a space and a newline. *)
Lemma failed_nonempty_output_dropped :
  ~ (forall (w : World) (domain : str) (s : State) (after : N) (rc : Z)
            (o e : str),
       spawn w (command domain) = Exits after rc o e ->
       (after <= 300)%N ->
       rc <> 0 -> rc <> -9 ->
       (o <> [] -> fst (run_naabu w domain s) = Ret (Some o))
       /\ (o = [] -> fst (run_naabu w domain s) = Ret None)).
Proof.
  intros H.
  destruct (H (stub (Exits 1 2 space_newline [])) (lit "example.com")
              initial 1%N 2 space_newline [] eq_refl) as [Hsome _];
    [discriminate ..|].
  specialize (Hsome ltac:(discriminate)). vm_compute in Hsome.
  discriminate Hsome.
Qed.

(** C5, amended.  When the child exits with a status that is neither
    zero nor -9, [run_naabu] prints the exit code and returns the
    captured standard output if it holds a character that is not
    whitespace, None otherwise. *)
Theorem failed_returns_usable_output
    (w : World) (domain : str) (s : State) (after : N) (rc : Z)
    (o e : str) :
  spawn w (command domain) = Exits after rc o e ->
  (after <= 300)%N ->
  rc <> 0 -> rc <> -9 ->
  fst (run_naabu w domain s) = Ret (if blank o then None else Some o)
  /\ In (lit "[!] naabu exited with code " ++ str_of_int rc)
        (out (snd (run_naabu w domain s))).
Proof.
  intros Hc Ht H0 H9.
  rewrite (exit_nonzero w domain s after rc o e Hc Ht H0 H9).
  split; [reflexivity|]. cbn. apply in_or_app. right. right. left.
  reflexivity.
Qed.

(** C5 amended, at the stub that exits 2 with empty output. *)
Lemma failed_returns_usable_output_witness :
  fst (run_naabu (stub (Exits 1 2 [] [])) (lit "example.com") initial)
  = Ret None
  /\ In (lit "[!] naabu exited with code 2")
        (out (snd (run_naabu (stub (Exits 1 2 [] [])) (lit "example.com")
                     initial))).
Proof.
  apply (failed_returns_usable_output
           (stub (Exits 1 2 [] [])) (lit "example.com") initial 1 2 [] []);
    [reflexivity | discriminate ..].
Defined.

(** C6.  When the 300 seconds are over before the child exits (it exits
    later, or never), the call of [run_naabu] still returns, and returns
    None; the timeout it passed to [subprocess.run] is 300. *)
Theorem timeout_returns_none (w : World) (domain : str) (s : State) :
  outlives 300 (spawn w (command domain)) ->
  exists s' : State,
    run_naabu w domain s = (Ret None, s')
    /\ spawned s' = spawned s ++ [(command domain, 300%N)]
    /\ In (lit "[!] naabu wordlist generation timed out") (out s').
Proof.
  intros H. rewrite (timed_out w domain s H). eexists.
  split; [reflexivity|]. split; [reflexivity|].
  cbn. apply in_or_app. right. right. left. reflexivity.
Qed.

(** C6, at a stub that never exits and at one that exits after 301
    seconds. *)
Lemma timeout_returns_none_witness :
  (exists s' : State,
     run_naabu (stub Hangs) (lit "example.com") initial = (Ret None, s')
     /\ spawned s' = [(command (lit "example.com"), 300%N)]
     /\ In (lit "[!] naabu wordlist generation timed out") (out s'))
  /\ (exists s' : State,
        run_naabu (stub (Exits 301 0 (lit "X") [])) (lit "example.com")
          initial = (Ret None, s')
        /\ spawned s' = [(command (lit "example.com"), 300%N)]
        /\ In (lit "[!] naabu wordlist generation timed out") (out s')).
Proof.
  split.
  - apply (timeout_returns_none (stub Hangs) (lit "example.com") initial).
    exact I.
  - apply (timeout_returns_none (stub (Exits 301 0 (lit "X") []))
             (lit "example.com") initial).
    reflexivity.
Defined.

(** C7.  Every call of [run_naabu] returns a value; no exception leaves
    it.  The value is None after a timeout, a missing executable or any
    other error of the launch, and after a non-zero exit it is the
    output or None. *)
Theorem run_naabu_raises_nothing (w : World) (domain : str) (s : State) :
  exists r : option str,
    fst (run_naabu w domain s) = Ret r
    /\ r = match spawn w (command domain) with
           | Exits after rc o e =>
               if (after <=? 300)%N then
                 if rc =? 0 then Some o
                 else if blank o then None else Some o
               else None
           | Hangs => None
           | LaunchFails (NotFound _) => None
           | LaunchFails (Failed _) => None
           end.
Proof.
  eexists. split; [apply returned_value | reflexivity].
Qed.

(** C10.  After a kill or any other non-zero exit, output that consists
    of whitespace only is dropped: [run_naabu] returns None although the
    captured text may be non-empty. *)
Theorem whitespace_output_is_absent
    (w : World) (domain : str) (s : State) (after : N) (rc : Z)
    (o e : str) :
  spawn w (command domain) = Exits after rc o e ->
  (after <= 300)%N ->
  rc <> 0 ->
  blank o = true ->
  fst (run_naabu w domain s) = Ret None.
Proof.
  intros Hc Ht H0 B.
  destruct (Z.eq_dec rc (-9)) as [->|H9].
  - rewrite (killed w domain s after o e Hc Ht), B. reflexivity.
  - rewrite (exit_nonzero w domain s after rc o e Hc Ht H0 H9), B.
    reflexivity.
Qed.

(** C10, at stubs that write a space and a newline and are then killed,
    or exit 2. *)
Lemma whitespace_output_is_absent_witness :
  space_newline <> []
  /\ fst (run_naabu (stub (Exits 1 (-9) space_newline []))
            (lit "example.com") initial) = Ret None
  /\ fst (run_naabu (stub (Exits 1 2 space_newline []))
            (lit "example.com") initial) = Ret None.
Proof.
  split; [discriminate|]. split.
  - apply (whitespace_output_is_absent
             (stub (Exits 1 (-9) space_newline []))
             (lit "example.com") initial 1 (-9) space_newline []);
      [reflexivity | discriminate | discriminate | reflexivity].
  - apply (whitespace_output_is_absent
             (stub (Exits 1 2 space_newline []))
             (lit "example.com") initial 1 2 space_newline []);
      [reflexivity | discriminate | discriminate | reflexivity].
Defined.

End RunnerClaims.

(** ** The dependency check, the saving caller and [main] *)

Module Cli.

Section Facts.

Variable w : World.

Lemma check_naabu_installed_eq (s : State) :
  check_naabu_installed w s
  = (probe_result (spawn w version_query), probed s).
Proof.
  unfold check_naabu_installed, try_except, bind, subprocess_run, ret,
    probe_result, probed.
  fold version_query.
  destruct (spawn w version_query) as [after rc o e| |[msg|msg]];
    cbn; try reflexivity.
  destruct (after <=? 5)%N; reflexivity.
Qed.

(** The four names the module's [def]s bind resolve; the name that
    [main] calls for the scan is not among them. *)
Lemma load_check_naabu_installed :
  load_global w "check_naabu_installed"
  = ret (Fn0 (b ← check_naabu_installed w; ret (VBool b))).
Proof. reflexivity. Qed.

Lemma load_activate_venv :
  load_global w "activate_venv" = ret (Fn0 (activate_venv;; ret VNone)).
Proof. reflexivity. Qed.

Lemma callee_unbound : module_globals w !! callee = None.
Proof. reflexivity. Qed.

Lemma load_callee :
  load_global w callee = raise (Exc (NameError callee)).
Proof. unfold load_global. rewrite callee_unbound. reflexivity. Qed.

(** [activate_venv] prints at most two lines and does nothing else. *)
Lemma activate_venv_eq (s : State) :
  exists lines : list str, activate_venv s = (Ret tt, printed lines s).
Proof.
  unfold activate_venv, bind, path_exists, path_is_dir, print, ret,
    printed.
  destruct s as [o e sp d f]. cbn.
  set (python := path_join (path_join (lit "venv") (lit "bin"))
                           (lit "python3")).
  destruct (bool_decide (lit "venv" ∈ d) || bool_decide (lit "venv" ∈ dom f));
    cbn; [|exists []; rewrite app_nil_r; reflexivity].
  destruct (bool_decide (lit "venv" ∈ d));
    cbn; [|exists []; rewrite app_nil_r; reflexivity].
  destruct (bool_decide (python ∈ d) || bool_decide (python ∈ dom f));
    cbn; rewrite <- app_assoc; eexists; reflexivity.
Qed.

Variables (script target : str) (rest : list str).

(** The dependency check fails: [main] prints two lines and calls
    [sys.exit(1)]. *)
Lemma main_not_installed (s : State) :
  fst (check_naabu_installed w s) = Ret false ->
  main w (script :: target :: rest) s
  = (Raise (SystemExit (VInt 1)),
     printed
       [lit "[!] Error: naabu is not installed or not in PATH";
        lit "Please install naabu first: https://naabu.projectdiscovery.io/naabu/get-started/"]
       (probed s)).
Proof.
  rewrite check_naabu_installed_eq. cbn [fst]. intros H.
  unfold main. cbn [length Nat.ltb Nat.leb].
  rewrite load_check_naabu_installed.
  unfold bind at 1. unfold ret at 1. unfold bind at 1. cbn [call0].
  unfold bind at 1. rewrite check_naabu_installed_eq, H.
  unfold ret at 1. unfold bind at 1. cbn [value_truthy negb].
  unfold bind, print, sys_exit, raise, printed. cbn.
  rewrite <- app_assoc. reflexivity.
Qed.

(** The dependency check itself fails with an exception: it leaves
    [main]. *)
Lemma main_check_raises (s : State) (e : BaseException) :
  fst (check_naabu_installed w s) = Raise e ->
  main w (script :: target :: rest) s = (Raise e, probed s).
Proof.
  rewrite check_naabu_installed_eq. cbn [fst]. intros H.
  unfold main. cbn [length Nat.ltb Nat.leb].
  rewrite load_check_naabu_installed.
  unfold bind at 1. unfold ret at 1. unfold bind at 1. cbn [call0].
  unfold bind at 1. rewrite check_naabu_installed_eq, H. reflexivity.
Qed.


(** The same, with the last line [main] printed. *)
Lemma main_installed_out (s : State) :
  fst (check_naabu_installed w s) = Ret true ->
  exists lines : list str,
    main w (script :: target :: rest) s
    = (Raise (Exc (NameError callee)),
       printed
         (lines
          ++ [lit "[*] Starting naabu subdomain wordlist generation for: "
              ++ target])
         (probed s)).
Proof.
  rewrite check_naabu_installed_eq. cbn [fst]. intros H.
  unfold main. cbn [length Nat.ltb Nat.leb].
  rewrite load_check_naabu_installed.
  unfold bind at 1. unfold ret at 1. unfold bind at 1. cbn [call0].
  unfold bind at 1. rewrite check_naabu_installed_eq, H.
  unfold ret at 1. unfold bind at 1. cbn [value_truthy negb].
  unfold ret at 1. rewrite load_activate_venv.
  unfold bind at 1. unfold ret at 1. unfold bind at 1. cbn [call0].
  unfold bind at 1.
  destruct (activate_venv_eq (probed s)) as [lines ->].
  unfold ret at 1. unfold bind at 1. unfold print at 1.
  fold callee. rewrite load_callee.
  unfold bind, raise, printed. cbn.
  rewrite <- app_assoc. exists lines. reflexivity.
Qed.

(** No target on the command line. *)
Lemma main_usage (argv : list str) (s : State) :
  (length argv < 2)%nat ->
  main w argv s
  = (Raise (SystemExit (VInt 1)),
     printed
       [lit "[!] Error: Please provide a subdomain for wordlist generation";
        lit "Usage: python3 naabu.py example.com"] s).
Proof.
  intros H. apply Nat.ltb_lt in H. unfold main. rewrite H.
  unfold bind, print, sys_exit, raise, printed. cbn.
  rewrite <- app_assoc. reflexivity.
Qed.

End Facts.

Section Saving.

Variable w : World.
Variables (subdomain : str) (s : State).

(** The runner reports absence: one line is printed, nothing else
    happens, the result is 1. *)
Lemma save_absent :
  fst (run_naabu w subdomain s) = Ret None ->
  run_naabu_and_save w subdomain s
  = (Ret 1,
     printed [lit "[!] naabu failed or returned no output"]
             (snd (run_naabu w subdomain s))).
Proof.
  unfold run_naabu_and_save, try_except, bind at 1.
  destruct (run_naabu w subdomain s) as [r s1]. cbn [fst snd].
  intros ->. reflexivity.
Qed.

(** The runner returns text and the system refuses nothing: the text is
    in the file and the result is 0. *)
Lemma save_present (text : str) :
  fst (run_naabu w subdomain s) = Ret (Some text) ->
  makedirs_fault w (lit "outputs") = None ->
  open_fault w (output_path w) = None ->
  write_fault w (output_path w) = None ->
  exists s' : State,
    run_naabu_and_save w subdomain s = (Ret 0, s')
    /\ files s' = <[output_path w := text]> (<[output_path w := []]> (files s))
    /\ dirs s' = dirs s ∪ {[lit "outputs"]}.
Proof.
  intros Hr Hm Ho Hw.
  destruct (Runner.returns w subdomain s) as (r & lines & E).
  rewrite E in Hr. cbn in Hr. injection Hr as ->.
  unfold run_naabu_and_save, try_except, bind at 1. rewrite E.
  unfold bind at 1, makedirs at 1. rewrite Hm.
  unfold bind at 1, now_strftime at 1.
  unfold bind at 1, write_file at 1. fold (output_path w).
  rewrite Ho, Hw. cbn.
  eexists. split; [reflexivity|]. split; reflexivity.
Qed.

(** Whatever happens, the result is 0 or 1 and no exception leaves. *)
Lemma save_returns_0_or_1 :
  exists (z : Z) (s' : State),
    run_naabu_and_save w subdomain s = (Ret z, s') /\ (z = 0 \/ z = 1).
Proof.
  destruct (Runner.returns w subdomain s) as (r & lines & E).
  destruct r as [text|].
  - unfold run_naabu_and_save, try_except, bind at 1. rewrite E.
    unfold bind at 1, makedirs at 1.
    destruct (makedirs_fault w (lit "outputs")); [cbn; eauto|].
    unfold bind at 1, now_strftime at 1.
    unfold bind at 1, write_file at 1. fold (output_path w).
    destruct (open_fault w (output_path w)); [cbn; eauto|].
    destruct (write_fault w (output_path w)); cbn; eauto.
  - rewrite save_absent by (rewrite E; reflexivity). eauto.
Qed.

(** What [run_naabu_and_save] does with the text the runner returned:
    the first refusal of the system ends it with 1. *)
Lemma save_eq (text : str) (s1 : State) :
  run_naabu w subdomain s = (Ret (Some text), s1) ->
  run_naabu_and_save w subdomain s
  = match makedirs_fault w (lit "outputs") with
    | Some msg => (Ret 1, complained msg s1)
    | None =>
        match open_fault w (output_path w) with
        | Some msg => (Ret 1, complained msg (with_outputs s1))
        | None =>
            match write_fault w (output_path w) with
            | Some msg =>
                (Ret 1,
                 complained msg (stored (output_path w) [] (with_outputs s1)))
            | None =>
                (Ret 0,
                 printed [lit "[*] naabu results saved as " ++ output_path w]
                   (stored (output_path w) text (with_outputs s1)))
            end
        end
    end.
Proof.
  intros E.
  unfold run_naabu_and_save, try_except, bind at 1. rewrite E.
  unfold bind at 1, makedirs at 1.
  destruct (makedirs_fault w (lit "outputs")); [reflexivity|].
  unfold bind at 1, now_strftime at 1.
  unfold bind at 1, write_file at 1. fold (output_path w).
  destruct (open_fault w (output_path w)); [reflexivity|].
  destruct (write_fault w (output_path w)); cbn.
  - unfold complained, stored, with_outputs. cbn.
    rewrite insert_insert_eq. reflexivity.
  - reflexivity.
Qed.

End Saving.

(** A child killed by SIGKILL after it wrote [partial]: the text is kept
    and saved, and [run_naabu_and_save] returns 0. *)
Lemma killed_output_is_saved :
  let w := stub (Exits 1 (-9) (lit "partial") []) in
  fst (run_naabu_and_save w (lit "example.com") initial) = Ret 0
  /\ files (snd (run_naabu_and_save w (lit "example.com") initial))
     !! lit "outputs/20240102030405123-naabu.txt"
     = Some (lit "partial").
Proof.
  split; vm_compute; reflexivity.
Qed.



End Cli.

(** ** Properties of the command line *)

Section CliClaims.

Import Cli.

(** C1, where the code departs from it.  On the healthy machine the
    dependency check passes and [run_naabu_and_save] would return 0, but
    [main] calls a name that no [def] binds: the call raises NameError
    before any scan is started, nothing is saved, and the process ends
    with status 1, not 0. *)
Theorem successful_run_exits_1 :
  fst (check_naabu_installed healthy initial) = Ret true
  /\ fst (run_naabu_and_save healthy (lit "example.com") initial) = Ret 0
  /\ module_globals healthy !! "run_naabu_wordlist_generation_and_save"
     = None
  /\ fst (main healthy [lit "naabu.py"; lit "example.com"] initial)
     = Raise (Exc (NameError "run_naabu_wordlist_generation_and_save"))
  /\ naabu_py healthy [lit "example.com"] initial
     = (1,
        {| out := [lit "[*] Starting naabu subdomain wordlist generation for: example.com"];
           err := [];
           spawned := [(version_query, 5%N)];
           dirs := ∅;
           files := ∅ |}).
Proof.
  repeat split; vm_compute; reflexivity.
Qed.

(** C8.  [check_naabu_installed] runs the version query with a timeout
    of 5 and returns True exactly when the query exits within it with
    status 0.  Unless it returns True, the version query is the only
    process [main] starts; when it returns False, [main] leaves through
    [sys.exit(1)]. *)
Theorem dependency_check_gates_runner
    (w : World) (target : str) (rest : list str) (s : State) :
  (fst (check_naabu_installed w s) = Ret true
   <-> exists after o e,
         spawn w version_query = Exits after 0 o e /\ (after <= 5)%N)
  /\ spawned (snd (check_naabu_installed w s))
     = spawned s ++ [(version_query, 5%N)]
  /\ (fst (check_naabu_installed w s) <> Ret true ->
      spawned (snd (naabu_py w (target :: rest) s))
      = spawned s ++ [(version_query, 5%N)])
  /\ (fst (check_naabu_installed w s) = Ret false ->
      fst (main w (lit "naabu.py" :: target :: rest) s)
      = Raise (SystemExit (VInt 1))
      /\ fst (naabu_py w (target :: rest) s) = 1).
Proof.
  split; [|split; [|split]].
  - rewrite check_naabu_installed_eq. cbn [fst]. unfold probe_result.
    destruct (spawn w version_query) as [after rc o e| |[msg|msg]];
      try (split; [discriminate | intros (? & ? & ? & ? & _); discriminate]).
    split.
    + destruct (after <=? 5)%N eqn:Ht; [|discriminate].
      intros [= H0]. apply Z.eqb_eq in H0 as ->.
      apply N.leb_le in Ht. eauto.
    + intros (a & o' & e' & [= -> -> _ _] & Ht).
      apply N.leb_le in Ht. rewrite Ht. reflexivity.
  - rewrite check_naabu_installed_eq. reflexivity.
  - intros H. unfold naabu_py.
    destruct (fst (check_naabu_installed w s)) as [[|]|e] eqn:E.
    + contradiction.
    + rewrite (main_not_installed w _ target rest s E). reflexivity.
    + rewrite (main_check_raises w _ target rest s e E). reflexivity.
  - intros E. unfold naabu_py.
    rewrite (main_not_installed w _ target rest s E). split; reflexivity.
Qed.

(** C8, on the machine whose version query exits 1. *)
Lemma dependency_check_gates_runner_witness :
  fst (check_naabu_installed broken initial) = Ret false
  /\ spawned (snd (naabu_py broken [lit "example.com"] initial))
     = [(version_query, 5%N)]
  /\ fst (main broken [lit "naabu.py"; lit "example.com"] initial)
     = Raise (SystemExit (VInt 1))
  /\ fst (naabu_py broken [lit "example.com"] initial) = 1.
Proof.
  destruct (dependency_check_gates_runner broken (lit "example.com") []
              initial) as (_ & _ & Hspawn & Hexit).
  split; [reflexivity|].
  split; [apply Hspawn; discriminate|].
  apply Hexit. reflexivity.
Defined.

(** C9.  [run_naabu] neither changes the file system nor depends on it.
    When it returns None, [run_naabu_and_save] returns 1 and leaves the
    file system as it was; when the dependency check returns False, the
    process ends with status 1 and the file system is as it was. *)
Theorem persistence_is_the_callers
    (w : World) (domain target : str) (rest : list str) (s : State) :
  fs (snd (run_naabu w domain s)) = fs s
  /\ (forall s2 : State,
        fst (run_naabu w domain s2) = fst (run_naabu w domain s))
  /\ (fst (run_naabu w domain s) = Ret None ->
      fst (run_naabu_and_save w domain s) = Ret 1
      /\ fs (snd (run_naabu_and_save w domain s)) = fs s)
  /\ (fst (check_naabu_installed w s) = Ret false ->
      fst (naabu_py w (target :: rest) s) = 1
      /\ fs (snd (naabu_py w (target :: rest) s)) = fs s).
Proof.
  assert (Hfs : fs (snd (run_naabu w domain s)) = fs s).
  { destruct (Runner.returns w domain s) as (r & lines & ->). reflexivity. }
  split; [|split; [|split]].
  - exact Hfs.
  - intros s2. rewrite !Runner.returned_value. reflexivity.
  - intros H. rewrite (save_absent w domain s H). split; [reflexivity|].
    exact Hfs.
  - intros E. unfold naabu_py.
    rewrite (main_not_installed w _ target rest s E). split; reflexivity.
Qed.

(** C9, on the machine whose version query exits 1 and whose scan never
    exits, with target [example.com]. *)
Lemma persistence_is_the_callers_witness :
  (fst (run_naabu_and_save broken (lit "example.com") initial) = Ret 1
   /\ fs (snd (run_naabu_and_save broken (lit "example.com") initial))
      = (∅, ∅))
  /\ (fst (naabu_py broken [lit "example.com"] initial) = 1
      /\ fs (snd (naabu_py broken [lit "example.com"] initial)) = (∅, ∅)).
Proof.
  destruct (persistence_is_the_callers broken (lit "example.com")
              (lit "example.com") [] initial) as (_ & _ & Hsave & Hcli).
  split; [apply Hsave | apply Hcli]; reflexivity.
Defined.

End CliClaims.

(** ** Further properties of [main] *)

Section MainFacts.

Import Cli.

(** X1.  Without a target on the command line [main] prints the two usage
    lines and leaves through [sys.exit(1)]: the dependency check is not
    run, no process is started and the file system is not touched. *)
Theorem main_without_target (w : World) (argv : list str) (s : State) :
  (length argv < 2)%nat ->
  main w argv s
  = (Raise (SystemExit (VInt 1)),
     {| out := out s
               ++ [lit "[!] Error: Please provide a subdomain for wordlist generation";
                   lit "Usage: python3 naabu.py example.com"];
        err := err s; spawned := spawned s;
        dirs := dirs s; files := files s |}).
Proof.
  intros H. rewrite (main_usage w argv s H). reflexivity.
Qed.

(** X1, with the script name alone. *)
Lemma main_without_target_witness :
  main healthy [lit "naabu.py"] initial
  = (Raise (SystemExit (VInt 1)),
     {| out := [lit "[!] Error: Please provide a subdomain for wordlist generation";
                lit "Usage: python3 naabu.py example.com"];
        err := []; spawned := []; dirs := ∅; files := ∅ |}).
Proof.
  apply (main_without_target healthy [lit "naabu.py"] initial).
  cbn. lia.
Defined.


(** X3.  When the dependency check passes, [main] prints the starting
    line and then fails with NameError on the name it calls for the scan:
    the scan is not started and nothing is written. *)
Theorem main_fails_after_check
    (w : World) (script target : str) (rest : list str) (s : State) :
  fst (check_naabu_installed w s) = Ret true ->
  fst (main w (script :: target :: rest) s)
  = Raise (Exc (NameError "run_naabu_wordlist_generation_and_save"))
  /\ spawned (snd (main w (script :: target :: rest) s))
     = spawned s ++ [(version_query, 5%N)]
  /\ fs (snd (main w (script :: target :: rest) s)) = fs s
  /\ last (out (snd (main w (script :: target :: rest) s)))
     = Some (lit "[*] Starting naabu subdomain wordlist generation for: "
             ++ target).
Proof.
  intros E.
  destruct (main_installed_out w script target rest s E) as [lines ->].
  cbn. repeat split. rewrite app_assoc. apply last_snoc.
Qed.

(** X3, on the healthy machine. *)
Lemma main_fails_after_check_witness :
  fst (main healthy [lit "naabu.py"; lit "example.com"] initial)
  = Raise (Exc (NameError "run_naabu_wordlist_generation_and_save"))
  /\ spawned (snd (main healthy [lit "naabu.py"; lit "example.com"] initial))
     = [(version_query, 5%N)]
  /\ fs (snd (main healthy [lit "naabu.py"; lit "example.com"] initial))
     = (∅, ∅)
  /\ last (out (snd (main healthy [lit "naabu.py"; lit "example.com"]
                       initial)))
     = Some (lit "[*] Starting naabu subdomain wordlist generation for: example.com").
Proof.
  apply (main_fails_after_check healthy (lit "naabu.py") (lit "example.com")
           [] initial).
  reflexivity.
Defined.

(** X4.  An error of the version query that is neither a timeout nor a
    missing file is not caught: it leaves [check_naabu_installed] and
    [main], which prints nothing, and the process ends with status 1. *)
Theorem check_error_leaves_main
    (w : World) (script target : str) (rest : list str) (s : State)
    (msg : str) :
  spawn w version_query = LaunchFails (Failed msg) ->
  fst (check_naabu_installed w s) = Raise (Exc (OtherException msg))
  /\ main w (script :: target :: rest) s
     = (Raise (Exc (OtherException msg)),
        {| out := out s; err := err s;
           spawned := spawned s ++ [(version_query, 5%N)];
           dirs := dirs s; files := files s |})
  /\ exit_status (fst (main w (script :: target :: rest) s)) = 1.
Proof.
  intros H.
  assert (E : fst (check_naabu_installed w s)
              = Raise (Exc (OtherException msg))).
  { rewrite check_naabu_installed_eq. cbn. rewrite H. reflexivity. }
  split; [exact E|].
  rewrite (main_check_raises w script target rest s _ E).
  split; reflexivity.
Qed.

(** X4, on a machine where running the binary is not permitted. *)
Lemma check_error_leaves_main_witness :
  fst (check_naabu_installed unlaunchable initial)
  = Raise (Exc (OtherException
                  (lit "[Errno 13] Permission denied: '/go/bin/naabu'")))
  /\ main unlaunchable [lit "naabu.py"; lit "example.com"] initial
     = (Raise (Exc (OtherException
                      (lit "[Errno 13] Permission denied: '/go/bin/naabu'"))),
        {| out := []; err := []; spawned := [(version_query, 5%N)];
           dirs := ∅; files := ∅ |})
  /\ exit_status
       (fst (main unlaunchable [lit "naabu.py"; lit "example.com"] initial))
     = 1.
Proof.
  apply (check_error_leaves_main unlaunchable (lit "naabu.py")
           (lit "example.com") [] initial
           (lit "[Errno 13] Permission denied: '/go/bin/naabu'")).
  reflexivity.
Defined.

End MainFacts.

(** ** Further properties of the dependency check and of [activate_venv] *)

Section ProbeFacts.

Import Cli.

(** X5.  [check_naabu_installed] answers False, without raising and
    without printing, when the version query is still running after 5
    seconds, when the executable is missing, and when the query exits with
    a status other than 0. *)
Theorem check_false_cases (w : World) (s : State) :
  (outlives 5 (spawn w version_query)
   \/ (exists msg, spawn w version_query = LaunchFails (NotFound msg))
   \/ (exists after rc o e,
         spawn w version_query = Exits after rc o e /\ rc <> 0)) ->
  check_naabu_installed w s
  = (Ret false,
     {| out := out s; err := err s;
        spawned := spawned s ++ [(version_query, 5%N)];
        dirs := dirs s; files := files s |}).
Proof.
  intros H. rewrite check_naabu_installed_eq. unfold probed.
  f_equal. unfold probe_result.
  destruct H as [H|[[msg ->]|(after & rc & o & e & -> & H)]].
  - destruct (spawn w version_query) as [after rc o e| |le];
      cbn in H; [|reflexivity|contradiction].
    apply N.leb_gt in H. rewrite H. reflexivity.
  - reflexivity.
  - apply Z.eqb_neq in H. rewrite H. destruct (after <=? 5)%N; reflexivity.
Qed.

(** X5, at a query that hangs, at a missing executable and at a query that
    exits 1. *)
Lemma check_false_cases_witness :
  fst (check_naabu_installed (stub Hangs) initial) = Ret false
  /\ fst (check_naabu_installed (stub (LaunchFails (NotFound [])))
            initial) = Ret false
  /\ fst (check_naabu_installed broken initial) = Ret false.
Proof.
  split; [|split].
  - rewrite (check_false_cases (stub Hangs) initial); [reflexivity|].
    left. exact I.
  - rewrite (check_false_cases (stub (LaunchFails (NotFound []))) initial);
      [reflexivity|].
    right. left. exists []. reflexivity.
  - rewrite (check_false_cases broken initial); [reflexivity|].
    right. right. exists 1%N, 1, [], []. split; [reflexivity|discriminate].
Defined.

(** X6.  When [venv] is not a directory (there is nothing of that name,
    or it is a regular file), [activate_venv] prints nothing and changes
    nothing. *)
Theorem activate_venv_without_directory (s : State) :
  lit "venv" ∉ dirs s ->
  activate_venv s = (Ret tt, s).
Proof.
  intros H.
  unfold activate_venv, bind, path_exists, path_is_dir, print, ret.
  rewrite (bool_decide_eq_false_2 _ H).
  destruct s as [o e sp d f]. cbn.
  destruct (bool_decide (lit "venv" ∈ dom f)); cbn.
  - cbn in H. rewrite (bool_decide_eq_false_2 _ H). reflexivity.
  - reflexivity.
Qed.

(** X6, where [venv] is a regular file. *)
Lemma activate_venv_without_directory_witness :
  activate_venv venv_file = (Ret tt, venv_file).
Proof.
  apply (activate_venv_without_directory venv_file).
  cbn. apply not_elem_of_empty.
Defined.

(** X7.  When [venv] is a directory, [activate_venv] prints that it was
    found and then whether [venv/bin/python3] exists; it changes nothing
    else and raises nothing. *)
Theorem activate_venv_with_directory (s : State) :
  lit "venv" ∈ dirs s ->
  venv_python = lit "venv/bin/python3"
  /\ activate_venv s
     = (Ret tt,
        {| out := out s
                  ++ [lit "[*] Virtual environment found";
                      if bool_decide (venv_python ∈ dirs s)
                         || bool_decide (venv_python ∈ dom (files s))
                      then lit "[*] Using virtual environment Python"
                      else lit "[*] Virtual environment found but Python not detected"];
           err := err s; spawned := spawned s;
           dirs := dirs s; files := files s |}).
Proof.
  intros H. split; [reflexivity|].
  unfold activate_venv, bind, path_exists, path_is_dir, print, ret.
  fold venv_python.
  rewrite (bool_decide_eq_true_2 _ H).
  destruct s as [o e sp d f]. cbn. cbn in H.
  rewrite (bool_decide_eq_true_2 _ H). cbn.
  destruct (bool_decide (venv_python ∈ d) || bool_decide (venv_python ∈ dom f));
    cbn; rewrite <- app_assoc; reflexivity.
Qed.

(** X7, with and without the interpreter in the directory. *)
Lemma activate_venv_with_directory_witness :
  out (snd (activate_venv venv_ready))
  = [lit "[*] Virtual environment found";
     lit "[*] Using virtual environment Python"]
  /\ out (snd (activate_venv venv_bare))
     = [lit "[*] Virtual environment found";
        lit "[*] Virtual environment found but Python not detected"].
Proof.
  split.
  - rewrite (proj2 (activate_venv_with_directory venv_ready
                      ltac:(vm_compute; reflexivity))).
    vm_compute. reflexivity.
  - rewrite (proj2 (activate_venv_with_directory venv_bare
                      ltac:(vm_compute; reflexivity))).
    vm_compute. reflexivity.
Defined.

End ProbeFacts.

(** ** Further properties of [run_naabu] *)

Section RunnerFacts.

Import Runner.

(** X8.  Every call of [run_naabu] calls [subprocess.run] exactly once,
    with the target as one argument of its own, unchanged, between [-host]
    and [-silent], and with timeout 300.  It first prints the command
    line, and it writes nothing to standard error. *)
Theorem run_naabu_starts_one_process (w : World) (domain : str) (s : State) :
  spawned (snd (run_naabu w domain s))
  = spawned s
    ++ [([lit "/go/bin/naabu"; lit "-host"; domain; lit "-silent"], 300%N)]
  /\ err (snd (run_naabu w domain s)) = err s
  /\ exists lines : list str,
       out (snd (run_naabu w domain s))
       = out s
         ++ (lit "[*] Executing: /go/bin/naabu -host " ++ domain
             ++ lit " -silent") :: lines.
Proof.
  destruct (returns w domain s) as (r & lines & ->).
  split; [reflexivity|]. split; [reflexivity|].
  exists lines. reflexivity.
Qed.

(** X9.  After an exit status that is neither 0 nor -9, [run_naabu]
    prints the exit code and then, only when the child wrote to standard
    error, a heading followed by that text; all of it goes to standard
    output. *)
Theorem failed_child_diagnostics
    (w : World) (domain : str) (s : State) (after : N) (rc : Z)
    (o e : str) :
  spawn w (command domain) = Exits after rc o e ->
  (after <= 300)%N ->
  rc <> 0 -> rc <> -9 ->
  out (snd (run_naabu w domain s))
  = out s
    ++ [executing domain; lit "[!] naabu exited with code " ++ str_of_int rc]
    ++ match e with
       | [] => []
       | _ :: _ => [lit "naabu error output:"; e]
       end
  /\ err (snd (run_naabu w domain s)) = err s.
Proof.
  intros Hc Ht H0 H9.
  rewrite (exit_nonzero w domain s after rc o e Hc Ht H0 H9).
  split; [|reflexivity]. destruct e; reflexivity.
Qed.

(** X9, at a child that exits 2 with a message on standard error, and at
    one that exits 2 silently. *)
Lemma failed_child_diagnostics_witness :
  out (snd (run_naabu (stub (Exits 1 2 [] (lit "no route"))) (lit "h")
              initial))
  = [lit "[*] Executing: /go/bin/naabu -host h -silent";
     lit "[!] naabu exited with code 2";
     lit "naabu error output:";
     lit "no route"]
  /\ out (snd (run_naabu (stub (Exits 1 2 [] [])) (lit "h") initial))
     = [lit "[*] Executing: /go/bin/naabu -host h -silent";
        lit "[!] naabu exited with code 2"].
Proof.
  split.
  - apply (failed_child_diagnostics (stub (Exits 1 2 [] (lit "no route")))
             (lit "h") initial 1 2 [] (lit "no route"));
      [reflexivity | discriminate ..].
  - apply (failed_child_diagnostics (stub (Exits 1 2 [] [])) (lit "h")
             initial 1 2 [] []);
      [reflexivity | discriminate ..].
Defined.

(** X10.  When the child cannot be started, [run_naabu] returns None after
    one line of diagnosis: a fixed line when the executable is missing,
    and otherwise a line that ends with the text of the error. *)
Theorem launch_error_diagnostics
    (w : World) (domain : str) (s : State) (le : LaunchError) :
  spawn w (command domain) = LaunchFails le ->
  fst (run_naabu w domain s) = Ret None
  /\ out (snd (run_naabu w domain s))
     = out s
       ++ [executing domain;
           match le with
           | NotFound _ =>
               lit "[!] Error: naabu command not found. Please ensure naabu is installed and in PATH"
           | Failed msg => lit "[!] Unexpected error running naabu: " ++ msg
           end].
Proof.
  intros Hc. destruct le as [msg|msg].
  - rewrite (not_found w domain s msg Hc). split; reflexivity.
  - rewrite (launch_failed w domain s msg Hc). split; reflexivity.
Qed.

(** X10, at a stub that cannot be executed. *)
Lemma launch_error_diagnostics_witness :
  fst (run_naabu (stub (LaunchFails (Failed (lit "[Errno 8] Exec format error"))))
         (lit "h") initial) = Ret None
  /\ out (snd (run_naabu
                 (stub (LaunchFails (Failed (lit "[Errno 8] Exec format error"))))
                 (lit "h") initial))
     = [lit "[*] Executing: /go/bin/naabu -host h -silent";
        lit "[!] Unexpected error running naabu: [Errno 8] Exec format error"].
Proof.
  apply (launch_error_diagnostics
           (stub (LaunchFails (Failed (lit "[Errno 8] Exec format error"))))
           (lit "h") initial (Failed (lit "[Errno 8] Exec format error"))).
  reflexivity.
Defined.

End RunnerFacts.

(** ** Further properties of [run_naabu_and_save] *)

Section SavingFacts.

Import Runner Cli.

(** X11.  When the runner returns text and the system refuses nothing,
    [run_naabu_and_save] makes sure the directory [outputs] exists, stores
    exactly that text in the output file, leaves every other file alone,
    prints where it saved and returns 0. *)
Theorem save_stores_the_output
    (w : World) (subdomain : str) (s : State) (text : str) :
  fst (run_naabu w subdomain s) = Ret (Some text) ->
  makedirs_fault w (lit "outputs") = None ->
  open_fault w (output_path w) = None ->
  write_fault w (output_path w) = None ->
  run_naabu_and_save w subdomain s
  = (Ret 0,
     {| out := out (snd (run_naabu w subdomain s))
               ++ [lit "[*] naabu results saved as " ++ output_path w];
        err := err s;
        spawned := spawned s ++ [(command subdomain, 300%N)];
        dirs := dirs s ∪ {[lit "outputs"]};
        files := <[output_path w := text]> (files s) |}).
Proof.
  intros Hr Hm Ho Hw.
  destruct (returns w subdomain s) as (r & lines & E).
  rewrite E in Hr. cbn in Hr. injection Hr as ->.
  rewrite (save_eq w subdomain s text _ E), Hm, Ho, Hw, E.
  unfold printed, stored, with_outputs, started. cbn.
  rewrite insert_insert_eq. reflexivity.
Qed.

(** X11, at a scan that exits 0 after printing [X]. *)
Lemma save_stores_the_output_witness :
  run_naabu_and_save (stub (Exits 1 0 (lit "X") [])) (lit "h") initial
  = (Ret 0,
     {| out := [lit "[*] Executing: /go/bin/naabu -host h -silent";
                lit "[*] naabu results saved as outputs/20240102030405123-naabu.txt"];
        err := [];
        spawned := [(command (lit "h"), 300%N)];
        dirs := {[lit "outputs"]};
        files := {[lit "outputs/20240102030405123-naabu.txt" := lit "X"]} |}).
Proof.
  rewrite (save_stores_the_output (stub (Exits 1 0 (lit "X") [])) (lit "h")
             initial (lit "X") eq_refl eq_refl eq_refl eq_refl).
  vm_compute. reflexivity.
Defined.

(** X12.  [run_naabu_and_save] returns 0 only if the runner returned text
    and that text is now in the output file, in the directory
    [outputs]. *)
Theorem save_zero_means_saved (w : World) (subdomain : str) (s : State) :
  fst (run_naabu_and_save w subdomain s) = Ret 0 ->
  exists text : str,
    fst (run_naabu w subdomain s) = Ret (Some text)
    /\ files (snd (run_naabu_and_save w subdomain s)) !! output_path w
       = Some text
    /\ lit "outputs" ∈ dirs (snd (run_naabu_and_save w subdomain s)).
Proof.
  destruct (returns w subdomain s) as (r & lines & E).
  destruct r as [text|].
  - rewrite (save_eq w subdomain s text _ E), E.
    destruct (makedirs_fault w (lit "outputs")); [discriminate|].
    destruct (open_fault w (output_path w)); [discriminate|].
    destruct (write_fault w (output_path w)); [discriminate|].
    intros _. exists text. cbn. split; [reflexivity|]. split.
    + apply lookup_insert_eq.
    + apply elem_of_union_r, elem_of_singleton. reflexivity.
  - rewrite save_absent by (rewrite E; reflexivity). discriminate.
Qed.

(** X12, at a scan that exits 0 after printing [X]. *)
Lemma save_zero_means_saved_witness :
  exists text : str,
    fst (run_naabu (stub (Exits 1 0 (lit "X") [])) (lit "h") initial)
    = Ret (Some text)
    /\ files (snd (run_naabu_and_save (stub (Exits 1 0 (lit "X") []))
                     (lit "h") initial))
       !! output_path (stub (Exits 1 0 (lit "X") []))
       = Some text
    /\ lit "outputs"
       ∈ dirs (snd (run_naabu_and_save (stub (Exits 1 0 (lit "X") []))
                      (lit "h") initial)).
Proof.
  apply (save_zero_means_saved (stub (Exits 1 0 (lit "X") [])) (lit "h")
           initial).
  vm_compute. reflexivity.
Defined.

(** X13.  No exception leaves [run_naabu_and_save], whatever the child
    does and whatever the system refuses: it returns 0 or 1. *)
Theorem save_raises_nothing (w : World) (subdomain : str) (s : State) :
  fst (run_naabu_and_save w subdomain s) = Ret 0
  \/ fst (run_naabu_and_save w subdomain s) = Ret 1.
Proof.
  destruct (save_returns_0_or_1 w subdomain s) as (z & s' & -> & [->| ->]);
    auto.
Qed.

(** X14.  When the directory [outputs] cannot be created, the text the
    runner returned is dropped: [run_naabu_and_save] reports the error on
    standard error, creates nothing and returns 1. *)
Theorem save_without_directory
    (w : World) (subdomain : str) (s : State) (text msg : str) :
  fst (run_naabu w subdomain s) = Ret (Some text) ->
  makedirs_fault w (lit "outputs") = Some msg ->
  fst (run_naabu_and_save w subdomain s) = Ret 1
  /\ err (snd (run_naabu_and_save w subdomain s))
     = err s ++ [lit "[!] Error running naabu: " ++ msg]
  /\ fs (snd (run_naabu_and_save w subdomain s)) = fs s.
Proof.
  intros Hr Hm.
  destruct (returns w subdomain s) as (r & lines & E).
  rewrite E in Hr. cbn in Hr. injection Hr as ->.
  rewrite (save_eq w subdomain s text _ E), Hm.
  repeat split.
Qed.

(** X14, where creating directories is not permitted. *)
Lemma save_without_directory_witness :
  fst (run_naabu_and_save (no_mkdir (Exits 1 0 (lit "X") [])) (lit "h")
         initial) = Ret 1
  /\ err (snd (run_naabu_and_save (no_mkdir (Exits 1 0 (lit "X") []))
                 (lit "h") initial))
     = [lit "[!] Error running naabu: [Errno 13] Permission denied: 'outputs'"]
  /\ fs (snd (run_naabu_and_save (no_mkdir (Exits 1 0 (lit "X") []))
                (lit "h") initial))
     = (∅, ∅).
Proof.
  apply (save_without_directory (no_mkdir (Exits 1 0 (lit "X") []))
           (lit "h") initial (lit "X")
           (lit "[Errno 13] Permission denied: 'outputs'"));
    reflexivity.
Defined.

(** X15.  When the output file cannot be opened, or cannot be written
    once it is open, [run_naabu_and_save] reports the error on standard
    error and returns 1; if it could not be opened, no file has
    changed. *)
Theorem save_without_file
    (w : World) (subdomain : str) (s : State) (text msg : str) :
  fst (run_naabu w subdomain s) = Ret (Some text) ->
  makedirs_fault w (lit "outputs") = None ->
  open_fault w (output_path w) = Some msg
  \/ (open_fault w (output_path w) = None
      /\ write_fault w (output_path w) = Some msg) ->
  fst (run_naabu_and_save w subdomain s) = Ret 1
  /\ err (snd (run_naabu_and_save w subdomain s))
     = err s ++ [lit "[!] Error running naabu: " ++ msg]
  /\ (open_fault w (output_path w) = Some msg ->
      files (snd (run_naabu_and_save w subdomain s)) = files s).
Proof.
  intros Hr Hm Hf.
  destruct (returns w subdomain s) as (r & lines & E).
  rewrite E in Hr. cbn in Hr. injection Hr as ->.
  rewrite (save_eq w subdomain s text _ E), Hm.
  destruct Hf as [Ho|[Ho Hw]]; rewrite Ho; [|rewrite Hw].
  - repeat split.
  - split; [reflexivity|]. split; [reflexivity|]. discriminate.
Qed.

(** X15, where files cannot be opened and where the disk is full. *)
Lemma save_without_file_witness :
  (fst (run_naabu_and_save (no_open (Exits 1 0 (lit "X") [])) (lit "h")
          initial) = Ret 1
   /\ err (snd (run_naabu_and_save (no_open (Exits 1 0 (lit "X") []))
                  (lit "h") initial))
      = [lit "[!] Error running naabu: [Errno 13] Permission denied"]
   /\ files (snd (run_naabu_and_save (no_open (Exits 1 0 (lit "X") []))
                    (lit "h") initial))
      = ∅)
  /\ (fst (run_naabu_and_save (no_write (Exits 1 0 (lit "X") [])) (lit "h")
             initial) = Ret 1
      /\ err (snd (run_naabu_and_save (no_write (Exits 1 0 (lit "X") []))
                     (lit "h") initial))
         = [lit "[!] Error running naabu: [Errno 28] No space left on device"]).
Proof.
  split.
  - destruct (save_without_file (no_open (Exits 1 0 (lit "X") [])) (lit "h")
                initial (lit "X") (lit "[Errno 13] Permission denied")
                eq_refl eq_refl (or_introl eq_refl)) as (H1 & H2 & H3).
    split; [assumption|]. split; [assumption|]. apply H3. reflexivity.
  - destruct (save_without_file (no_write (Exits 1 0 (lit "X") []))
                (lit "h") initial (lit "X")
                (lit "[Errno 28] No space left on device")
                eq_refl eq_refl (or_intror (conj eq_refl eq_refl)))
      as (H1 & H2 & _).
    split; assumption.
Defined.

(** X16.  A scan that exits 0 without any output is still saved: the
    output file is created empty and the result is 0. *)
Theorem empty_scan_is_saved
    (w : World) (subdomain : str) (s : State) (after : N) (e : str) :
  spawn w (command subdomain) = Exits after 0 [] e ->
  (after <= 300)%N ->
  makedirs_fault w (lit "outputs") = None ->
  open_fault w (output_path w) = None ->
  write_fault w (output_path w) = None ->
  fst (run_naabu_and_save w subdomain s) = Ret 0
  /\ files (snd (run_naabu_and_save w subdomain s)) !! output_path w
     = Some [].
Proof.
  intros Hc Ht Hm Ho Hw.
  rewrite (save_eq w subdomain s [] _ (exit_zero w subdomain s after [] e Hc Ht)).
  rewrite Hm, Ho, Hw. split; [reflexivity|]. apply lookup_insert_eq.
Qed.

(** X16, at a stub that exits 0 in silence. *)
Lemma empty_scan_is_saved_witness :
  fst (run_naabu_and_save (stub (Exits 1 0 [] [])) (lit "h") initial)
  = Ret 0
  /\ files (snd (run_naabu_and_save (stub (Exits 1 0 [] [])) (lit "h")
                   initial))
     !! output_path (stub (Exits 1 0 [] []))
     = Some [].
Proof.
  apply (empty_scan_is_saved (stub (Exits 1 0 [] [])) (lit "h") initial 1 []);
    [reflexivity | discriminate | reflexivity ..].
Defined.

(** X17.  The output file is [outputs/<stamp>-naabu.txt], where [<stamp>]
    is the formatted time without its last three characters (the
    microseconds cut down to milliseconds), whenever the formatted time
    does not begin with a slash. *)
Theorem output_path_shape (w : World) :
  head (strftime_now w) <> Some 47%N ->
  output_path w
  = lit "outputs/" ++ drop_last3 (strftime_now w) ++ lit "-naabu.txt"
  /\ (3 <= length (strftime_now w) ->
      exists last3 : str,
        length last3 = 3
        /\ strftime_now w = drop_last3 (strftime_now w) ++ last3)%nat.
Proof.
  intros H. split.
  - unfold output_path, path_join, drop_last3.
    destruct (strftime_now w) as [|c t]; [reflexivity|].
    destruct (length (c :: t) - 3)%nat; [reflexivity|].
    cbn [take app].
    destruct (N.eq_dec c 47%N) as [->|Hc]; [contradiction H; reflexivity|].
    destruct c as [|[p|p|]]; try reflexivity;
      repeat (destruct p as [p|p|]; try reflexivity).
    contradiction Hc. reflexivity.
  - intros Hl. exists (drop (length (strftime_now w) - 3) (strftime_now w)).
    split.
    + rewrite length_drop. lia.
    + unfold drop_last3. symmetry. apply take_drop.
Qed.

(** X17, at 2024-01-02 03:04:05.123456. *)
Lemma output_path_shape_witness :
  output_path (stub Hangs) = lit "outputs/20240102030405123-naabu.txt".
Proof.
  rewrite (proj1 (output_path_shape (stub Hangs) ltac:(discriminate))).
  vm_compute. reflexivity.
Defined.

End SavingFacts.
